(** * The [time_now] MCP tool of [src/app/api/mcp/route.js]

    A shallow embedding of the route module: the configuration closure given
    to [createMcpHandler], the single tool it registers and the callback of
    that tool.  The callback reads the clock, formats the reading with
    [Date.prototype.toLocaleString('tr-TR', options)] and wraps the sentence
    in one text block.

    Three layers are not written in the repository and are modelled here so
    that the callback can be evaluated:
    - the date arithmetic of ECMA-262 (module [Date]);
    - the date-time formatter of ECMA-402 together with its host tables, the
      time-zone database and the locale data (module [Intl]);
    - the hosting MCP framework: tool registry, argument validation and
      dispatch (module [Mcp]).  *)

From Stdlib Require Import ZArith String Ascii DecimalString DecimalN Lia.
From stdpp Require Import gmap strings list fin_maps.

Local Open Scope Z_scope.

(** ** Completions and promises *)

(** A JavaScript exception value, as far as this module can meet one. *)
Inductive Exception :=
  | RangeError (what : string)
  | Error (message : string).

(** Outcome of evaluating an expression: a value or a thrown exception. *)
Inductive Completion (A : Type) :=
  | Normal (a : A)
  | Throw (e : Exception).
Arguments Normal {A} a.
Arguments Throw {A} e.

#[global] Instance Completion_ret : MRet Completion := fun A a => Normal a.

#[global] Instance Completion_bind : MBind Completion := fun A B k c =>
  match c with
  | Normal a => k a
  | Throw e => Throw e
  end.

(** A settled promise, what awaiting an [async] function observes. *)
Inductive Promise (A : Type) :=
  | Fulfilled (a : A)
  | Rejected (e : Exception).
Arguments Fulfilled {A} a.
Arguments Rejected {A} e.

(** ** The process a callback runs in

    What JavaScript code can observe and change: the system clock, in
    milliseconds since the epoch, and the mutable state of the process
    (globals, heap), kept abstract as [S]. *)
Record World (S : Type) := {
  clock : Z;
  state : S
}.
Arguments clock {S} _.
Arguments state {S} _.

(** A computation: from a world to a completion and the world it leaves. *)
Definition JS (S A : Type) : Type := World S -> Completion A * World S.

#[global] Instance JS_ret {S} : MRet (JS S) := fun A a w => (Normal a, w).

#[global] Instance JS_bind {S} : MBind (JS S) := fun A B k m w =>
  match m w with
  | (Normal a, w') => k a w'
  | (Throw e, w') => (Throw e, w')
  end.

(** [new Date()]: the time value of the current clock reading. *)
Definition new_Date {S} : JS S Z := fun w => (Normal (clock w), w).

(** A call into the host library, which does not touch the process state. *)
Definition builtin {S A} (c : Completion A) : JS S A := fun w => (c, w).

(** An [async] arrow function whose body never awaits: the body runs to its
    completion and the promise returned is settled by it. *)
Definition async {S A} (body : JS S A) : World S -> Promise A * World S := fun w =>
  match body w with
  | (Normal a, w') => (Fulfilled a, w')
  | (Throw e, w') => (Rejected e, w')
  end.

(** ** ECMA-262 date arithmetic

    The calendar fields of a time value are computed by the JavaScript host,
    not by the repository.  Time values are milliseconds since the epoch;
    the definitions are those of ECMA-262 (Day, DayFromYear, YearFromTime,
    MonthFromTime, DateFromTime, HourFromTime, ...). *)

Module Date.

Definition msPerSecond : Z := 1000.
Definition msPerMinute : Z := 60000.
Definition msPerHour : Z := 3600000.
Definition msPerDay : Z := 86400000.

(** Modelled from the spec: the day number and the calendar fields of a time
    value, which the host computes and the repository does not define; they
    are what "year, month, day, hour, minute, second" of a clock reading
    mean, written as in ECMA-262. *)
Definition Day (t : Z) : Z := t / msPerDay.
Definition TimeWithinDay (t : Z) : Z := t mod msPerDay.

Definition DaysInYear (y : Z) : Z :=
  if negb (y mod 4 =? 0) then 365
  else if negb (y mod 100 =? 0) then 366
  else if negb (y mod 400 =? 0) then 365
  else 366.

Definition DayFromYear (y : Z) : Z :=
  365 * (y - 1970) + (y - 1969) / 4 - (y - 1901) / 100 + (y - 1601) / 400.

Definition TimeFromYear (y : Z) : Z := msPerDay * DayFromYear y.

(** The year containing day number [d]: ECMA-262 asks for the largest [y]
    with [DayFromYear y <= d]; it is computed from the mean year length
    and corrected by at most one. *)
Definition YearFromDay (d : Z) : Z :=
  let y := 1970 + (400 * d) / 146097 in
  if d <? DayFromYear y then y - 1
  else if DayFromYear (y + 1) <=? d then y + 1
  else y.

Definition YearFromTime (t : Z) : Z := YearFromDay (Day t).

Definition InLeapYear (t : Z) : Z :=
  if DaysInYear (YearFromTime t) =? 366 then 1 else 0.

Definition DayWithinYear (t : Z) : Z := Day t - DayFromYear (YearFromTime t).

(** Months are numbered from 0 (January) to 11 (December). *)
Definition MonthFromTime (t : Z) : Z :=
  let d := DayWithinYear t in
  let leap := InLeapYear t in
  if d <? 31 then 0
  else if d <? 59 + leap then 1
  else if d <? 90 + leap then 2
  else if d <? 120 + leap then 3
  else if d <? 151 + leap then 4
  else if d <? 181 + leap then 5
  else if d <? 212 + leap then 6
  else if d <? 243 + leap then 7
  else if d <? 273 + leap then 8
  else if d <? 304 + leap then 9
  else if d <? 334 + leap then 10
  else 11.

Definition DateFromTime (t : Z) : Z :=
  let d := DayWithinYear t in
  let leap := InLeapYear t in
  match MonthFromTime t with
  | 0 => d + 1
  | 1 => d - 30
  | 2 => d - 58 - leap
  | 3 => d - 89 - leap
  | 4 => d - 119 - leap
  | 5 => d - 150 - leap
  | 6 => d - 180 - leap
  | 7 => d - 211 - leap
  | 8 => d - 242 - leap
  | 9 => d - 272 - leap
  | 10 => d - 303 - leap
  | _ => d - 333 - leap
  end.

Definition HourFromTime (t : Z) : Z := (t / msPerHour) mod 24.
Definition MinFromTime (t : Z) : Z := (t / msPerMinute) mod 60.
Definition SecFromTime (t : Z) : Z := (t / msPerSecond) mod 60.

(** *** The calendar read the other way, used to state what a rendered
    date denotes. *)

Definition leap_day (y : Z) : Z := if DaysInYear y =? 366 then 1 else 0.

(** Day of the year on which the 1-based month [m] of year [y] starts. *)
Definition month_start (y m : Z) : Z :=
  match m with
  | 1 => 0
  | 2 => 31
  | 3 => 59 + leap_day y
  | 4 => 90 + leap_day y
  | 5 => 120 + leap_day y
  | 6 => 151 + leap_day y
  | 7 => 181 + leap_day y
  | 8 => 212 + leap_day y
  | 9 => 243 + leap_day y
  | 10 => 273 + leap_day y
  | 11 => 304 + leap_day y
  | _ => 334 + leap_day y
  end.

Definition DaysInMonth (y m : Z) : Z :=
  match m with
  | 2 => 28 + leap_day y
  | 4 | 6 | 9 | 11 => 30
  | _ => 31
  end.

(** Day number of the civil date [y]-[m]-[d], month and day 1-based. *)
Definition civil_day (y m d : Z) : Z := DayFromYear y + month_start y m + d - 1.

End Date.

(** ** ECMA-402 date-time formatting over the host's tables

    The formatter is the host's.  The spec fixes the fields (numeric year,
    the rest 2-digit), the zone and the locale; the resolution of options
    and the rendering of a field follow ECMA-402. *)

Module Intl.

(** An entry of the time-zone database: the offset from UTC, in seconds
    east of Greenwich, before the first transition, and the transitions in
    increasing order, each an epoch second with the offset in force from
    that second on.  Daylight-saving rules are transitions. *)
Record TimeZone := {
  initial_offset : Z;
  transitions : list (Z * Z)
}.

Definition utc_offset (zone : TimeZone) (s : Z) : Z :=
  fold_left (fun off tr => if fst tr <=? s then snd tr else off)
            (transitions zone) (initial_offset zone).

Definition fixed_zone (off : Z) : TimeZone :=
  {| initial_offset := off; transitions := [] |}.

(** Local time, in milliseconds, shown by the wall clocks of [zone] at the
    instant [tv]. *)
Definition LocalTime (zone : TimeZone) (tv : Z) : Z :=
  tv + 1000 * utc_offset zone (tv / 1000).

Inductive Field := Fday | Fmonth | Fyear | Fhour | Fminute | Fsecond.

Inductive Part :=
  | Literal (s : string)
  | Component (f : Field).

(** The host: its time-zone database and its locale data, a date-time
    pattern per available locale and the pattern of the default locale,
    which serves every locale the host has no data for. *)
Record Host := {
  tzdb : gmap string TimeZone;
  locale_data : gmap string (list Part);
  default_pattern : list Part
}.

(** The options bag, with the keys the route module sets. *)
Record Options := {
  timeZone : string;
  hour : string;
  minute : string;
  second : string;
  day : string;
  month : string;
  year : string
}.

Inductive Style := Numeric | TwoDigit.

Record DateTimeFormat := {
  zone : TimeZone;
  pattern : list Part;
  style : Field -> Style
}.

(** Reading a component option: a value outside the accepted ones is a
    RangeError.  Only the two numeric styles are modelled. *)
Definition GetOption (name value : string) : Completion Style :=
  if String.eqb value "numeric" then Normal Numeric
  else if String.eqb value "2-digit" then Normal TwoDigit
  else Throw (RangeError name).

(** A time-zone name the database does not have is a RangeError. *)
Definition ResolveTimeZone (host : Host) (name : string) : Completion TimeZone :=
  match tzdb host !! name with
  | Some z => Normal z
  | None => Throw (RangeError "timeZone")
  end.

(** A locale the host has no data for is served by the default locale, not
    refused.  Tags that are not well-formed, which ECMA-402 refuses with a
    RangeError, are not modelled; "tr-TR" is well-formed. *)
Definition ResolveLocale (host : Host) (locales : string) : list Part :=
  default (default_pattern host) (locale_data host !! locales).

Definition CreateDateTimeFormat (host : Host) (locales : string) (options : Options)
  : Completion DateTimeFormat :=
  let pat := ResolveLocale host locales in
  z ← ResolveTimeZone host (timeZone options);
  sy ← GetOption "year" (year options);
  smo ← GetOption "month" (month options);
  sd ← GetOption "day" (day options);
  sh ← GetOption "hour" (hour options);
  smi ← GetOption "minute" (minute options);
  ss ← GetOption "second" (second options);
  mret {| zone := z; pattern := pat;
          style := fun f => match f with
                            | Fday => sd | Fmonth => smo | Fyear => sy
                            | Fhour => sh | Fminute => smi | Fsecond => ss
                            end |}.

(** Decimal digits of a non-negative integer, without leading zeros. *)
Definition decimal (v : Z) : string :=
  NilZero.string_of_uint (N.to_uint (Z.to_N v)).

Fixpoint zeros (n : nat) : string :=
  match n with
  | O => EmptyString
  | S k => String "0" (zeros k)
  end.

(** Decimal digits padded with zeros to at least [minimumIntegerDigits]. *)
Definition FormatNumeric (minimumIntegerDigits : nat) (v : Z) : string :=
  let s := decimal v in
  zeros (minimumIntegerDigits - String.length s) +:+ s.

Definition format_component (st : Style) (v : Z) : string :=
  match st with
  | Numeric => FormatNumeric 1 v
  | TwoDigit =>
      let fv := FormatNumeric 2 v in
      if (2 <? String.length fv)%nat
      then substring (String.length fv - 2) 2 fv
      else fv
  end.

(** Years before year 1 are shown by their year of the era. *)
Definition year_of_era (y : Z) : Z := if y <=? 0 then 1 - y else y.

(** The number a field shows for local time [tl]: months count from 1, hours
    run from 0 to 23. *)
Definition field_value (f : Field) (tl : Z) : Z :=
  match f with
  | Fyear => year_of_era (Date.YearFromTime tl)
  | Fmonth => Date.MonthFromTime tl + 1
  | Fday => Date.DateFromTime tl
  | Fhour => Date.HourFromTime tl
  | Fminute => Date.MinFromTime tl
  | Fsecond => Date.SecFromTime tl
  end.

Definition format_part (dtf : DateTimeFormat) (tl : Z) (p : Part) : string :=
  match p with
  | Literal s => s
  | Component f => format_component (style dtf f) (field_value f tl)
  end.

Definition FormatDateTime (dtf : DateTimeFormat) (tv : Z) : string :=
  let tl := LocalTime (zone dtf) tv in
  fold_right (fun p acc => format_part dtf tl p +:+ acc) EmptyString (pattern dtf).

(** Modelled from the spec: [Date.prototype.toLocaleString] called on the
    time value [tv], a built-in of the JavaScript host and not code of the
    repository.  It resolves the locale and the options as ECMA-402 does,
    throwing RangeError for a time zone the database does not have or an
    option value that is not accepted, and renders the fields of the local
    time in the pattern of the locale. *)
Definition toLocaleString (host : Host) (tv : Z) (locales : string) (options : Options)
  : Completion string :=
  dtf ← CreateDateTimeFormat host locales options;
  mret (FormatDateTime dtf tv).

(** Modelled from the spec: the locale data for tr-TR, which is the host's
    and not the repository's: day.month.year, a space, then
    hour:minute:second on the 24-hour clock. *)
Definition tr_TR : list Part :=
  [ Component Fday; Literal "."; Component Fmonth; Literal "."; Component Fyear;
    Literal " ";
    Component Fhour; Literal ":"; Component Fminute; Literal ":"; Component Fsecond ].

(** Modelled from the spec: the time-zone database entry for
    Europe/Istanbul, which is the host's and not the repository's: UTC+3
    with no daylight-saving transition. *)
Definition Europe_Istanbul : TimeZone := fixed_zone 10800.

(** A host that has both tables. *)
Definition reference_host : Host :=
  {| tzdb := {[ "Europe/Istanbul" := Europe_Istanbul ]};
     locale_data := {[ "tr-TR" := tr_TR ]};
     default_pattern := tr_TR |}.

End Intl.


(** ** The hosting MCP framework

    The registry, the argument validation and the dispatch belong to the
    external package [mcp-handler]; none of them is in the repository. *)

Module Mcp.

Inductive Json :=
  | JNull
  | JBool (b : bool)
  | JNumber (n : Z)
  | JString (s : string).

(** The kinds of parameter a schema can declare. *)
Inductive ParamType := TString | TNumber | TBoolean.

Record ContentBlock := {
  type : string;
  text : string
}.

Record ToolInvocationResult := {
  content : list ContentBlock
}.

Record RegisteredTool (S : Type) := {
  description : string;
  inputSchema : gmap string ParamType;
  callback : gmap string Json -> World S -> Promise ToolInvocationResult * World S
}.
Arguments description {S} _.
Arguments inputSchema {S} _.
Arguments callback {S} _.

Record McpServer (S : Type) := {
  tools : gmap string (RegisteredTool S);
  resources : gset string;
  prompts : gset string
}.
Arguments tools {S} _.
Arguments resources {S} _.
Arguments prompts {S} _.

(** The server instance a configuration closure receives. *)
Definition fresh_server {S} : McpServer S :=
  {| tools := ∅; resources := ∅; prompts := ∅ |}.

(** Modelled from the spec: [server.tool(name, description, schema,
    callback)] of the framework.  The registry is the mapping from tool name
    to {description, schema, handler}, and a name must not collide with one
    already registered in the same server instance. *)
Definition tool {S} (name description : string) (schema : gmap string ParamType)
    (cb : gmap string Json -> World S -> Promise ToolInvocationResult * World S)
    (server : McpServer S) : Completion (McpServer S) :=
  match tools server !! name with
  | Some _ => Throw (Error "tool is already registered")
  | None =>
      Normal {| tools := <[name := {| description := description;
                                      inputSchema := schema;
                                      callback := cb |}]> (tools server);
                resources := resources server;
                prompts := prompts server |}
  end.

Definition has_type (v : Json) (ty : ParamType) : bool :=
  match v, ty with
  | JString _, TString | JNumber _, TNumber | JBool _, TBoolean => true
  | _, _ => false
  end.

(** The framework's validation of an argument object, which is not code of
    the repository and is modelled on what the framework does, not on the
    spec.  The framework turns the declared shape into a zod object schema
    (zod is the schema library the README pins for [mcp-handler] and the MCP
    SDK) and parses the arguments with it: every declared parameter has to
    be present with a value of its kind, and a key the shape does not
    declare is dropped from the object, not refused.  The result is the
    object handed to the callback. *)
Definition validate (schema : gmap string ParamType) (args : gmap string Json)
  : option (gmap string Json) :=
  if forallb (fun kt => match args !! kt.1 with
                        | Some v => has_type v kt.2
                        | None => false
                        end) (map_to_list schema)
  then Some (filter (fun kv => is_Some (schema !! kv.1)) args)
  else None.

Record Config := {
  basePath : string
}.

(** What [createMcpHandler] returns: the route handler, which keeps the
    configuration closure, the server options and the configuration. *)
Record Handler (S : Type) := {
  initializeServer : McpServer S -> Completion (McpServer S);
  serverOptions : gmap string Json;
  config : Config
}.
Arguments initializeServer {S} _.
Arguments serverOptions {S} _.
Arguments config {S} _.

(** Modelled from the spec: [createMcpHandler(initializeServer,
    serverOptions, config)] of the framework. *)
Definition createMcpHandler {S} (init : McpServer S -> Completion (McpServer S))
    (opts : gmap string Json) (cfg : Config) : Handler S :=
  {| initializeServer := init; serverOptions := opts; config := cfg |}.

(** Modelled from the spec: the server behind a handler, a fresh instance
    configured by the closure. *)
Definition server_of {S} (h : Handler S) : Completion (McpServer S) :=
  initializeServer h fresh_server.

(** How a [tools/call] request ends. *)
Inductive CallOutcome :=
  | ServerFailed (e : Exception)
  | ToolNotFound
  | InvalidParams
  | Invoked (p : Promise ToolInvocationResult).

(** Modelled from the spec: the framework's handling of a [tools/call]
    request.  It looks the tool up by name in the registry, validates the
    arguments against the declared schema with [validate] and only then
    invokes the registered callback, on the validated object. *)
Definition tools_call {S} (h : Handler S) (name : string) (args : gmap string Json)
    (w : World S) : CallOutcome * World S :=
  match server_of h with
  | Throw e => (ServerFailed e, w)
  | Normal server =>
      match tools server !! name with
      | None => (ToolNotFound, w)
      | Some t =>
          match validate (inputSchema t) args with
          | Some args' => let (p, w') := callback t args' w in (Invoked p, w')
          | None => (InvalidParams, w)
          end
      end
  end.

End Mcp.

(** ** The route module, [src/app/api/mcp/route.js]

    The module also imports [server] from the typescript package; the name
    is shadowed by the parameter of the closure and never used. *)

Module Route.
Import Mcp.

(** The options object built by the callback. *)
Definition options : Intl.Options :=
  {| Intl.timeZone := "Europe/Istanbul";
     Intl.hour := "2-digit";
     Intl.minute := "2-digit";
     Intl.second := "2-digit";
     Intl.day := "2-digit";
     Intl.month := "2-digit";
     Intl.year := "numeric" |}.

(** The sentence in front of the timestamp, as UTF-8 bytes. *)
Definition prefix : string := "Şu an İstanbul saatiyle: ".

(** The callback registered for the tool.  The arrow function binds no
    parameter: whatever argument object the framework passes is dropped. *)
Definition time_now {S} (host : Intl.Host) (_ : gmap string Json)
  : World S -> Promise ToolInvocationResult * World S :=
  async (
    now ← new_Date;
    timeString ← builtin (Intl.toLocaleString host now "tr-TR" options);
    mret {| content := [ {| type := "text"; text := prefix +:+ timeString |} ] |}).

(** The configuration closure given to [createMcpHandler]. *)
Definition configure {S} (host : Intl.Host) (server : McpServer S)
  : Completion (McpServer S) :=
  tool "time_now"
       "Returns the current time in Istanbul (Europe/Istanbul timezone)"
       ∅
       (time_now host)
       server.

Definition handler {S} (host : Intl.Host) : Handler S :=
  createMcpHandler (configure host) ∅ {| basePath := "/api" |}.

Definition GET {S} (host : Intl.Host) : Handler S := handler host.
Definition POST {S} (host : Intl.Host) : Handler S := handler host.
Definition DELETE {S} (host : Intl.Host) : Handler S := handler host.

End Route.


(** ** Reading a rendered timestamp back *)

Module Timestamp.

Record CivilTime := {
  c_year : Z;
  c_month : Z;
  c_day : Z;
  c_hour : Z;
  c_minute : Z;
  c_second : Z
}.

(** A date of the calendar and a time of the 24-hour clock. *)
Definition well_formed (c : CivilTime) : Prop :=
  1 <= c_month c <= 12 /\ 1 <= c_day c <= Date.DaysInMonth (c_year c) (c_month c) /\
  0 <= c_hour c < 24 /\ 0 <= c_minute c < 60 /\ 0 <= c_second c < 60.

(** Seconds from 1970-01-01 00:00:00 to [c], both on the same wall clock. *)
Definition local_second (c : CivilTime) : Z :=
  Date.civil_day (c_year c) (c_month c) (c_day c) * 86400
  + c_hour c * 3600 + c_minute c * 60 + c_second c.

(** The instant, in milliseconds since the epoch, at which a wall clock
    running [offset] seconds ahead of UTC shows [c]. *)
Definition instant_of (c : CivilTime) (offset : Z) : Z :=
  (local_second c - offset) * 1000.

(** The calendar fields of the local time [tl], in milliseconds. *)
Definition civil_of_time (tl : Z) : CivilTime :=
  {| c_year := Date.YearFromTime tl;
     c_month := Date.MonthFromTime tl + 1;
     c_day := Date.DateFromTime tl;
     c_hour := Date.HourFromTime tl;
     c_minute := Date.MinFromTime tl;
     c_second := Date.SecFromTime tl |}.

Definition digit (k : Z) : ascii := ascii_of_nat (48 + Z.to_nat k).

(** Exactly two decimal digits. *)
Definition pad2 (n : Z) : string :=
  String (digit (n / 10)) (String (digit (n mod 10)) EmptyString).

(** The tr-TR rendering of a civil time: dd.MM.y HH:mm:ss. *)
Definition render (c : CivilTime) : string :=
  pad2 (c_day c) +:+ "." +:+ pad2 (c_month c) +:+ "." +:+
  Intl.decimal (Intl.year_of_era (c_year c)) +:+ " " +:+
  pad2 (c_hour c) +:+ ":" +:+ pad2 (c_minute c) +:+ ":" +:+ pad2 (c_second c).

Definition is_digit (a : ascii) : bool :=
  ((48 <=? nat_of_ascii a) && (nat_of_ascii a <=? 57))%nat.

Definition digit_value (a : ascii) : Z := Z.of_nat (nat_of_ascii a) - 48.

Definition read2 (s : string) : option (Z * string) :=
  match s with
  | String a (String b rest) =>
      if is_digit a && is_digit b
      then Some (10 * digit_value a + digit_value b, rest)
      else None
  | _ => None
  end.

Definition expect (a : ascii) (s : string) : option string :=
  match s with
  | String b rest => if Ascii.eqb a b then Some rest else None
  | EmptyString => None
  end.

Fixpoint span_digits (s : string) : string * string :=
  match s with
  | String a rest =>
      if is_digit a
      then let (ds, tl) := span_digits rest in (String a ds, tl)
      else (EmptyString, s)
  | EmptyString => (EmptyString, EmptyString)
  end.

Definition read_number (s : string) : option (Z * string) :=
  let (ds, rest) := span_digits s in
  u ← NilZero.uint_of_string ds;
  Some (Z.of_N (N.of_uint u), rest).

(** Parser of dd.MM.y HH:mm:ss; the year is read as a year of the common
    era. *)
Definition parse (s : string) : option CivilTime :=
  '(d, s) ← read2 s; s ← expect "." s;
  '(mo, s) ← read2 s; s ← expect "." s;
  '(y, s) ← read_number s; s ← expect " " s;
  '(h, s) ← read2 s; s ← expect ":" s;
  '(mi, s) ← read2 s; s ← expect ":" s;
  '(se, s) ← read2 s;
  match s with
  | EmptyString =>
      Some {| c_year := y; c_month := mo; c_day := d;
              c_hour := h; c_minute := mi; c_second := se |}
  | _ => None
  end.

Fixpoint strip_prefix (p s : string) : option string :=
  match p, s with
  | EmptyString, _ => Some s
  | String a p', String b s' => if Ascii.eqb a b then strip_prefix p' s' else None
  | _, _ => None
  end.

(** The civil time written in the text of a result. *)
Definition parse_text (t : string) : option CivilTime :=
  strip_prefix Route.prefix t ≫= parse.

(** The formatter that the options of the route module resolve to on a
    host whose database has [zone] for Europe/Istanbul. *)
Definition resolved (host : Intl.Host) (zone : Intl.TimeZone) : Intl.DateTimeFormat :=
  {| Intl.zone := zone;
     Intl.pattern := Intl.ResolveLocale host "tr-TR";
     Intl.style := fun f => match f with
                            | Intl.Fyear => Intl.Numeric
                            | _ => Intl.TwoDigit
                            end |}.

(** A result made of one text block. *)
Definition one_text (t : string) : Mcp.ToolInvocationResult :=
  {| Mcp.content := [ {| Mcp.type := "text"; Mcp.text := t |} ] |}.

(** Whether [sub] occurs in [s]. *)
Fixpoint contains (sub s : string) : bool :=
  String.prefix sub s ||
  match s with
  | String _ rest => contains sub rest
  | EmptyString => false
  end.

End Timestamp.

(** ** The shape of a text *)

Module Shape.

(** What a position of a text may hold: any decimal digit, or one given
    character. *)
Inductive CharClass :=
  | AnyDigit
  | Exactly (a : ascii).

(** Whether [s] has exactly the characters the classes ask for, in order. *)
Fixpoint matches (classes : list CharClass) (s : string) : bool :=
  match classes, s with
  | [], EmptyString => true
  | AnyDigit :: cs, String a rest => Timestamp.is_digit a && matches cs rest
  | Exactly b :: cs, String a rest => Ascii.eqb a b && matches cs rest
  | _, _ => false
  end.

(** Two digits, dot, two digits, dot, four digits, space, two digits, colon,
    two digits, colon, two digits. *)
Definition timestamp_shape : list CharClass :=
  [ AnyDigit; AnyDigit; Exactly "."; AnyDigit; AnyDigit; Exactly ".";
    AnyDigit; AnyDigit; AnyDigit; AnyDigit; Exactly " ";
    AnyDigit; AnyDigit; Exactly ":"; AnyDigit; AnyDigit; Exactly ":";
    AnyDigit; AnyDigit ].

End Shape.



(** A server on which another tool, [echo], is already registered. *)
Definition server_with_echo (host : Intl.Host) : Mcp.McpServer unit :=
  {| Mcp.tools := {[ "echo" := {| Mcp.description := "Repeats its input";
                                  Mcp.inputSchema := {[ "message" := Mcp.TString ]};
                                  Mcp.callback := Route.time_now host |} ]};
     Mcp.resources := {[ "notes" ]};
     Mcp.prompts := ∅ |}.

(** * Properties *)

(** ** Sample evaluations *)

Section Samples.
Import Intl Timestamp Mcp Route.

Example format_at_epoch :
  toLocaleString reference_host 0 "tr-TR" options = Normal "01.01.1970 03:00:00".
Proof. vm_compute. reflexivity. Qed.

Example format_leap_day :
  toLocaleString reference_host 951782400000 "tr-TR" options
  = Normal "29.02.2000 03:00:00".
Proof. vm_compute. reflexivity. Qed.

Example format_last_second_of_year :
  toLocaleString reference_host 1735678799999 "tr-TR" options
  = Normal "31.12.2024 23:59:59".
Proof. vm_compute. reflexivity. Qed.

Example format_first_second_of_year :
  toLocaleString reference_host 1735678800000 "tr-TR" options
  = Normal "01.01.2025 00:00:00".
Proof. vm_compute. reflexivity. Qed.

Example format_before_epoch :
  toLocaleString reference_host (-1) "tr-TR" options = Normal "01.01.1970 02:59:59".
Proof. vm_compute. reflexivity. Qed.

Example format_unknown_zone :
  toLocaleString {| tzdb := ∅; locale_data := {[ "tr-TR" := tr_TR ]};
                    default_pattern := tr_TR |} 0 "tr-TR" options
  = Throw (RangeError "timeZone").
Proof. vm_compute. reflexivity. Qed.

Example option_value_rejected : GetOption "hour" "2-digits" = Throw (RangeError "hour").
Proof. reflexivity. Qed.

Example two_digit_year : format_component TwoDigit 2024 = "24".
Proof. vm_compute. reflexivity. Qed.

Example parse_sample :
  parse "15.01.2024 13:30:00"
  = Some {| c_year := 2024; c_month := 1; c_day := 15;
            c_hour := 13; c_minute := 30; c_second := 0 |}.
Proof. vm_compute. reflexivity. Qed.

Example parse_truncated : parse "15.01.2024 13:30:0" = None.
Proof. vm_compute. reflexivity. Qed.

Example instant_sample :
  (fun c => instant_of c 10800) <$> parse "15.01.2024 13:30:00" = Some 1705314600000.
Proof. vm_compute. reflexivity. Qed.

Example call_unknown_tool :
  tools_call (handler reference_host) "time_then" ∅ {| clock := 0; state := tt |}
  = (ToolNotFound, {| clock := 0; state := tt |}).
Proof. vm_compute. reflexivity. Qed.

Example call_time_now :
  tools_call (handler reference_host) "time_now" ∅
             {| clock := 1705314600000; state := tt |}
  = (Invoked (Fulfilled (one_text (prefix +:+ "15.01.2024 13:30:00"))),
     {| clock := 1705314600000; state := tt |}).
Proof. vm_compute. reflexivity. Qed.

End Samples.

(** ** The calendar *)

Section Calendar.
Import Date.

Lemma DaysInYear_cases y : DaysInYear y = 365 \/ DaysInYear y = 366.
Proof.
  unfold DaysInYear.
  repeat match goal with |- context [?a =? ?b] => destruct (a =? b) end; auto.
Qed.

Lemma DayFromYear_succ y : DayFromYear (y + 1) = DayFromYear y + DaysInYear y.
Proof.
  unfold DayFromYear, DaysInYear.
  repeat match goal with
         | |- context [?a =? ?b] => destruct (Z.eqb_spec a b)
         end; simpl; Z.div_mod_to_equations; lia.
Qed.

(** [YearFromDay] meets the definition of ECMA-262: day [d] lies in the year
    it returns. *)
Lemma YearFromDay_spec d :
  DayFromYear (YearFromDay d) <= d < DayFromYear (YearFromDay d + 1).
Proof.
  unfold YearFromDay.
  set (y := 1970 + 400 * d / 146097).
  assert (Hlo : DayFromYear (y - 1) <= d)
    by (subst y; unfold DayFromYear; Z.div_mod_to_equations; lia).
  assert (Hhi : d < DayFromYear (y + 2))
    by (subst y; unfold DayFromYear; Z.div_mod_to_equations; lia).
  destruct (Z.ltb_spec d (DayFromYear y)).
  - replace (y - 1 + 1) with y by lia. lia.
  - destruct (Z.leb_spec (DayFromYear (y + 1)) d).
    + replace (y + 1 + 1) with (y + 2) by lia. lia.
    + lia.
Qed.

Lemma DayWithinYear_range t :
  0 <= DayWithinYear t < DaysInYear (YearFromTime t).
Proof.
  unfold DayWithinYear, YearFromTime.
  pose proof (YearFromDay_spec (Day t)) as H.
  rewrite DayFromYear_succ in H. lia.
Qed.

Lemma YearFromTime_epoch t : 0 <= t -> 1970 <= YearFromTime t.
Proof.
  intros Ht. unfold YearFromTime.
  pose proof (YearFromDay_spec (Day t)) as [_ H].
  assert (0 <= Day t) by (unfold Day, msPerDay; Z.div_mod_to_equations; lia).
  revert H. generalize (YearFromDay (Day t)). intros y.
  unfold DayFromYear. Z.div_mod_to_equations. lia.
Qed.

Ltac month_cases :=
  repeat match goal with
         | |- context [?a <? ?b] => destruct (Z.ltb_spec a b)
         end.

Lemma month_range t : 0 <= MonthFromTime t <= 11.
Proof. unfold MonthFromTime. month_cases; lia. Qed.

(** The date computed from a time value is a date of the calendar, and it is
    the date of the day the time value falls on. *)
Lemma civil_day_of_time t :
  let y := YearFromTime t in
  let m := MonthFromTime t + 1 in
  let d := DateFromTime t in
  1 <= d <= DaysInMonth y m /\ civil_day y m d = Day t.
Proof.
  pose proof (DayWithinYear_range t) as Hr.
  assert (Hleap : InLeapYear t = leap_day (YearFromTime t)) by reflexivity.
  assert (Hd : Day t = DayFromYear (YearFromTime t) + DayWithinYear t)
    by (unfold DayWithinYear; lia).
  cbv zeta. unfold civil_day, month_start, DaysInMonth. rewrite Hd.
  unfold DateFromTime, MonthFromTime. rewrite Hleap.
  revert Hr. generalize (DayWithinYear t). intros n Hr.
  assert (Hl : DaysInYear (YearFromTime t) = 365 + leap_day (YearFromTime t)).
  { unfold leap_day. destruct (DaysInYear_cases (YearFromTime t)) as [E | E];
      rewrite E; reflexivity. }
  assert (Hb : 0 <= leap_day (YearFromTime t) <= 1).
  { unfold leap_day. destruct (_ =? _); lia. }
  rewrite Hl in Hr.
  revert Hr Hb. generalize (leap_day (YearFromTime t)) as l. intros l Hr Hb.
  month_cases; simpl; lia.
Qed.

Lemma time_of_day t :
  0 <= HourFromTime t < 24 /\ 0 <= MinFromTime t < 60 /\ 0 <= SecFromTime t < 60 /\
  Day t * 86400 + HourFromTime t * 3600 + MinFromTime t * 60 + SecFromTime t
  = t / 1000.
Proof.
  unfold HourFromTime, MinFromTime, SecFromTime, Day,
    msPerHour, msPerMinute, msPerSecond, msPerDay.
  Z.div_mod_to_equations. lia.
Qed.

End Calendar.

(** ** Rendering and reading back *)

Section Rendering.
Import Intl Timestamp.

Lemma civil_of_time_well_formed tl : well_formed (civil_of_time tl).
Proof.
  pose proof (civil_day_of_time tl) as [Hd _].
  pose proof (month_range tl).
  pose proof (time_of_day tl) as (Hh & Hm & Hs & _).
  unfold well_formed, civil_of_time; cbn [c_year c_month c_day c_hour c_minute c_second].
  repeat split; lia.
Qed.

Lemma civil_of_time_second tl : local_second (civil_of_time tl) = tl / 1000.
Proof.
  pose proof (civil_day_of_time tl) as [_ Hd].
  pose proof (time_of_day tl) as (_ & _ & _ & Ht).
  unfold local_second, civil_of_time; cbn [c_year c_month c_day c_hour c_minute c_second].
  rewrite Hd. exact Ht.
Qed.

Lemma DaysInMonth_le y m : Date.DaysInMonth y m <= 31.
Proof.
  unfold Date.DaysInMonth, Date.leap_day.
  destruct (_ =? _); destruct m as [ | p | p ]; try lia;
    do 4 (try destruct p as [ p | p | ]); lia.
Qed.

(** Checking a property of every number below 100 by evaluation. *)
Lemma below_100 (P : Z -> bool) :
  forallb P (seqZ 0 100) = true -> forall v, 0 <= v < 100 -> P v = true.
Proof.
  intros H v Hv. rewrite forallb_forall in H. apply H.
  apply list_elem_of_In, elem_of_seqZ. lia.
Qed.

Lemma uint_string_nonnil (u : Decimal.uint) :
  u <> Decimal.Nil -> NilZero.string_of_uint u = NilEmpty.string_of_uint u.
Proof. destruct u; congruence || reflexivity. Qed.

Lemma to_uint_nonnil (n : N) : N.to_uint n <> Decimal.Nil.
Proof.
  destruct n; [discriminate | apply DecimalPos.Unsigned.to_uint_nonnil].
Qed.

Lemma decimal_nonempty v : (1 <= String.length (decimal v))%nat.
Proof.
  unfold decimal. pose proof (to_uint_nonnil (Z.to_N v)) as H.
  destruct (N.to_uint (Z.to_N v)); [congruence | simpl; lia ..].
Qed.

Lemma format_numeric v : format_component Numeric v = decimal v.
Proof.
  unfold format_component, FormatNumeric.
  pose proof (decimal_nonempty v).
  replace (1 - String.length (decimal v))%nat with 0%nat by lia.
  reflexivity.
Qed.

Lemma format_two_digit v : 0 <= v < 100 -> format_component TwoDigit v = pad2 v.
Proof.
  intros Hv. apply String.eqb_eq.
  apply (below_100 (fun v => String.eqb (format_component TwoDigit v) (pad2 v)));
    [vm_compute; reflexivity | exact Hv].
Qed.

Lemma append_cons a s r : String a s +:+ r = String a (s +:+ r).
Proof. reflexivity. Qed.

Lemma append_nil r : EmptyString +:+ r = r.
Proof. reflexivity. Qed.

Lemma read2_pad2 v rest : 0 <= v < 100 -> read2 (pad2 v +:+ rest) = Some (v, rest).
Proof.
  intros Hv.
  assert (Hc : match read2 (pad2 v) with
               | Some (x, EmptyString) => x =? v
               | _ => false
               end = true).
  { apply (below_100 (fun v => match read2 (pad2 v) with
                               | Some (x, EmptyString) => x =? v
                               | _ => false
                               end)); [vm_compute; reflexivity | exact Hv]. }
  unfold pad2, read2 in *. rewrite !append_cons, append_nil.
  destruct (is_digit _ && is_digit _); [ | discriminate].
  apply Z.eqb_eq in Hc. do 2 f_equal. exact Hc.
Qed.

Lemma span_digits_uint (u : Decimal.uint) rest :
  span_digits (NilEmpty.string_of_uint u +:+ String " " rest)
  = (NilEmpty.string_of_uint u, String " " rest).
Proof.
  induction u; cbn [NilEmpty.string_of_uint]; rewrite ?append_cons, ?append_nil;
    cbn [span_digits]; [reflexivity | rewrite IHu; reflexivity ..].
Qed.

Lemma read_number_decimal y rest :
  0 <= y -> read_number (decimal y +:+ String " " rest) = Some (y, String " " rest).
Proof.
  intros Hy. unfold read_number, decimal.
  pose proof (to_uint_nonnil (Z.to_N y)) as Hn.
  rewrite (uint_string_nonnil _ Hn), span_digits_uint.
  rewrite <- (uint_string_nonnil _ Hn), (NilZero.usu _ Hn).
  cbn [mbind option_bind]. rewrite DecimalN.Unsigned.of_to, Z2N.id by lia.
  reflexivity.
Qed.

Lemma expect_same a rest : expect a (String a rest) = Some rest.
Proof. unfold expect. rewrite Ascii.eqb_refl. reflexivity. Qed.

Ltac parse_step :=
  cbn [mbind option_bind];
  rewrite ?append_cons, ?append_nil, ?expect_same;
  cbn [mbind option_bind].

(** Reading a rendered civil time of the common era gives it back. *)
Lemma parse_render c : well_formed c -> 1 <= c_year c -> parse (render c) = Some c.
Proof.
  intros (Hm & Hd & Hh & Hmi & Hs) Hy.
  pose proof (DaysInMonth_le (c_year c) (c_month c)).
  assert (Hera : year_of_era (c_year c) = c_year c).
  { unfold year_of_era. destruct (Z.leb_spec (c_year c) 0); lia. }
  unfold render, parse. rewrite Hera.
  rewrite read2_pad2 by lia. parse_step.
  rewrite read2_pad2 by lia. parse_step.
  rewrite read_number_decimal by lia. parse_step.
  rewrite read2_pad2 by lia. parse_step.
  rewrite read2_pad2 by lia. parse_step.
  replace (pad2 (c_second c)) with (pad2 (c_second c) +:+ EmptyString)
    by (unfold pad2; reflexivity).
  rewrite read2_pad2 by lia.
  destruct c; reflexivity.
Qed.

End Rendering.

(** ** The callback *)

Section Callback.
Import Intl Timestamp Mcp Route.
Context {S : Type}.
Implicit Types (host : Host) (zone : TimeZone) (args : gmap string Json) (w : World S).

Lemma toLocaleString_resolved host zone tv :
  tzdb host !! "Europe/Istanbul" = Some zone ->
  toLocaleString host tv "tr-TR" options = Normal (FormatDateTime (resolved host zone) tv).
Proof.
  intros Hz. unfold toLocaleString, CreateDateTimeFormat, ResolveTimeZone.
  cbn [timeZone options]. rewrite Hz. reflexivity.
Qed.

Lemma toLocaleString_missing_zone host tv :
  tzdb host !! "Europe/Istanbul" = None ->
  toLocaleString host tv "tr-TR" options = Throw (RangeError "timeZone").
Proof.
  intros Hz. unfold toLocaleString, CreateDateTimeFormat, ResolveTimeZone.
  cbn [timeZone options]. rewrite Hz. reflexivity.
Qed.

Lemma time_now_run host zone args w :
  tzdb host !! "Europe/Istanbul" = Some zone ->
  time_now host args w
  = (Fulfilled (one_text (prefix +:+ FormatDateTime (resolved host zone) (clock w))), w).
Proof.
  intros Hz. unfold time_now, async, new_Date, builtin, mbind, JS_bind, mret, JS_ret.
  rewrite (toLocaleString_resolved host zone _ Hz). reflexivity.
Qed.

Lemma FormatDateTime_tr_TR host zone tv :
  locale_data host !! "tr-TR" = Some tr_TR ->
  FormatDateTime (resolved host zone) tv = render (civil_of_time (LocalTime zone tv)).
Proof.
  intros Hl.
  pose proof (civil_of_time_well_formed (LocalTime zone tv)) as (Hm & Hd & Hh & Hmi & Hs).
  pose proof (DaysInMonth_le (c_year (civil_of_time (LocalTime zone tv)))
                             (c_month (civil_of_time (LocalTime zone tv)))).
  unfold FormatDateTime, resolved, ResolveLocale, render.
  cbn [Intl.zone pattern style]. rewrite Hl. unfold civil_of_time in *.
  cbn [c_year c_month c_day c_hour c_minute c_second] in *.
  cbn [default from_option]. unfold id, tr_TR.
  cbn [fold_right format_part style field_value].
  rewrite !format_two_digit, format_numeric by lia.
  rewrite !append_cons, !append_nil.
  unfold pad2 at 5. rewrite !append_cons, append_nil. reflexivity.
Qed.

Lemma LocalTime_second zone tv :
  LocalTime zone tv / 1000 = tv / 1000 + utc_offset zone (tv / 1000).
Proof.
  unfold LocalTime. generalize (utc_offset zone (tv / 1000)). intros o.
  Z.div_mod_to_equations. lia.
Qed.

Lemma strip_prefix_append p s : strip_prefix p (p +:+ s) = Some s.
Proof.
  induction p as [ | a p IH]; [destruct s; reflexivity | ].
  rewrite append_cons. cbn [strip_prefix]. rewrite Ascii.eqb_refl. exact IH.
Qed.

Lemma append_inj p s1 s2 : p +:+ s1 = p +:+ s2 -> s1 = s2.
Proof.
  intros E. apply (f_equal (strip_prefix p)) in E.
  rewrite !strip_prefix_append in E. congruence.
Qed.


(** The callback unfolded: one clock reading, one call of the formatter, and
    the world handed back as it was. *)
Lemma time_now_unfold host args w :
  time_now host args w
  = (match toLocaleString host (clock w) "tr-TR" options with
     | Normal timeString => Fulfilled (one_text (prefix +:+ timeString))
     | Throw e => Rejected e
     end, w).
Proof.
  unfold time_now, async, new_Date, builtin, mbind, JS_bind, mret, JS_ret.
  destruct (toLocaleString host (clock w) "tr-TR" options); reflexivity.
Qed.

(** Without the zone in the database the formatter throws and the promise
    returned by the callback is rejected with its RangeError. *)
Lemma time_now_without_zone host args w :
  tzdb host !! "Europe/Istanbul" = None ->
  time_now host args w = (Rejected (RangeError "timeZone"), w).
Proof.
  intros Hz. unfold time_now, async, new_Date, builtin, mbind, JS_bind, mret, JS_ret.
  rewrite (toLocaleString_missing_zone host _ Hz). reflexivity.
Qed.

End Callback.

(** ** The claims about the callback *)

Section Claims.
Import Intl Timestamp Mcp Route.
Context {S : Type}.
Implicit Types (host : Host) (zone : TimeZone) (args : gmap string Json) (w : World S).

(** C1.  On a host that has Europe/Istanbul in its time-zone database and
    the tr-TR locale data, every invocation returns a single text whose
    content is the fixed prefix followed by a timestamp dd.MM.y HH:mm:ss:
    two-digit day, month, hour, minute and second and a numeric year (shown
    as a year of the era), which are the fields of a well-formed civil time,
    namely the one the wall clocks of the zone show at the clock reading. *)
Theorem time_now_text_is_prefix_and_timestamp host zone args w :
  tzdb host !! "Europe/Istanbul" = Some zone ->
  locale_data host !! "tr-TR" = Some tr_TR ->
  exists c : CivilTime,
    time_now host args w = (Fulfilled (one_text (prefix +:+ render c)), w) /\
    well_formed c /\
    local_second c = (clock w + 1000 * utc_offset zone (clock w / 1000)) / 1000.
Proof.
  intros Hz Hl. exists (civil_of_time (LocalTime zone (clock w))).
  split; [ | split].
  - rewrite (time_now_run host zone args w Hz), (FormatDateTime_tr_TR host zone _ Hl).
    reflexivity.
  - apply civil_of_time_well_formed.
  - apply civil_of_time_second.
Qed.

(** C2.  Invoked with no arguments on a host that has the zone, the callback
    returns a result whose content is a list of exactly one block, of type
    "text". *)
Theorem time_now_one_text_block host zone w :
  tzdb host !! "Europe/Istanbul" = Some zone ->
  exists (r : ToolInvocationResult) (b : ContentBlock),
    fst (time_now host ∅ w) = Fulfilled r /\
    content r = [b] /\ type b = "text".
Proof.
  intros Hz. rewrite (time_now_run host zone ∅ w Hz).
  eexists _, _. repeat split.
Qed.

(** C3.  At the instant 2024-01-15T10:30:00Z, with Europe/Istanbul at UTC+3
    without daylight saving, the text returned is the prefix sentence
    followed by "15.01.2024 13:30:00"; it contains "15.01.2024" and
    "13:30:00". *)
Theorem time_now_example_instant host args (st : S) :
  tzdb host !! "Europe/Istanbul" = Some (fixed_zone 10800) ->
  locale_data host !! "tr-TR" = Some tr_TR ->
  exists t : string,
    fst (time_now host args {| clock := 1705314600000; state := st |})
    = Fulfilled (one_text t) /\
    t = prefix +:+ "15.01.2024 13:30:00" /\
    contains "15.01.2024" t = true /\
    contains "13:30:00" t = true.
Proof.
  intros Hz Hl. exists (prefix +:+ "15.01.2024 13:30:00").
  split; [ | split; [reflexivity | split; vm_compute; reflexivity]].
  rewrite (time_now_run host _ args _ Hz), (FormatDateTime_tr_TR host _ _ Hl).
  cbn [fst clock]. vm_compute. reflexivity.
Qed.

(** C4.  Whatever the clock reads, on a host whose time-zone database has
    Europe/Istanbul the callback runs to completion: the promise is
    fulfilled with a result, never rejected. *)
Theorem time_now_cannot_fail host zone args w :
  tzdb host !! "Europe/Istanbul" = Some zone ->
  exists r : ToolInvocationResult, time_now host args w = (Fulfilled r, w).
Proof.
  intros Hz. rewrite (time_now_run host zone args w Hz). eexists. reflexivity.
Qed.

(** C8.  On a host that has the zone and the locale data, when the local
    year is a year of the common era, the text returned parses back to a
    civil time; read with the offset from UTC that the zone has in force at
    the invocation, daylight saving included, it denotes an instant at most
    one second before the clock reading and never after it. *)
Theorem time_now_timestamp_within_tolerance host zone args w :
  tzdb host !! "Europe/Istanbul" = Some zone ->
  locale_data host !! "tr-TR" = Some tr_TR ->
  1 <= Date.YearFromTime (LocalTime zone (clock w)) ->
  exists (t : string) (c : CivilTime),
    time_now host args w = (Fulfilled (one_text t), w) /\
    parse_text t = Some c /\
    0 <= clock w - instant_of c (utc_offset zone (clock w / 1000)) < 1000.
Proof.
  intros Hz Hl Hy.
  rewrite (time_now_run host zone args w Hz), (FormatDateTime_tr_TR host zone _ Hl).
  eexists _, _. split; [reflexivity | split].
  - unfold parse_text. rewrite strip_prefix_append. cbn [mbind option_bind].
    apply parse_render; [apply civil_of_time_well_formed | exact Hy].
  - unfold instant_of. rewrite civil_of_time_second, LocalTime_second.
    Z.div_mod_to_equations. lia.
Qed.

(** C9.  The callback leaves the world, process state included, as it found
    it; two invocations that observe the same clock reading return the same
    result, whatever the rest of the process state; and invoking it again in
    the world it leaves gives the same result and the same world. *)
Theorem time_now_side_effect_free host args w1 w2 :
  clock w1 = clock w2 ->
  snd (time_now host args w1) = w1 /\
  fst (time_now host args w1) = fst (time_now host args w2) /\
  time_now host args (snd (time_now host args w1)) = time_now host args w1.
Proof.
  intros E. split; [ | split].
  - rewrite time_now_unfold. reflexivity.
  - rewrite !time_now_unfold. cbn [fst]. rewrite E. reflexivity.
  - rewrite (time_now_unfold host args w1). cbn [snd]. apply time_now_unfold.
Qed.

(** C10.  The callback binds no parameter: whatever argument object reaches
    it, the result is the one of an invocation with the empty argument
    object at the same clock reading, whatever the rest of the process
    state, and in the same world the two invocations coincide entirely. *)
Theorem time_now_ignores_arguments host args w w0 :
  clock w = clock w0 ->
  fst (time_now host args w) = fst (time_now host ∅ w0) /\
  time_now host args w = time_now host ∅ w.
Proof.
  intros E. split; [ | reflexivity].
  rewrite !time_now_unfold. cbn [fst]. rewrite E. reflexivity.
Qed.

End Claims.

(** ** The claims about the registration *)

Section Registration.
Import Intl Timestamp Mcp Route.
Context {S : Type}.
Implicit Types (host : Host) (args : gmap string Json) (w : World S).

(** The entry the configuration closure registers. *)
Lemma server_of_handler host :
  server_of (handler (S := S) host)
  = Normal {| tools := {[ "time_now" :=
                {| description :=
                     "Returns the current time in Istanbul (Europe/Istanbul timezone)";
                   inputSchema := ∅;
                   callback := time_now host |} ]};
              resources := ∅;
              prompts := ∅ |}.
Proof.
  unfold server_of, handler, createMcpHandler, configure, tool.
  cbn [initializeServer fresh_server tools resources prompts].
  rewrite lookup_empty, insert_empty. reflexivity.
Qed.

Lemma validate_empty_schema args : validate ∅ args = Some ∅.
Proof.
  unfold validate. rewrite map_to_list_empty. cbn [forallb]. f_equal.
  apply map_empty_filter_2. intros k v _ [ty Hty]. cbn [fst] in Hty.
  rewrite lookup_empty in Hty. discriminate.
Qed.


(** C6.  The configuration closure, run on the server instance of the
    handler, succeeds and leaves exactly one registered tool: the name
    "time_now" bound to the fixed description, the empty schema and the
    callback.  No resource and no prompt is registered, and "time_now" is
    the only tool name of the instance. *)
Theorem handler_registers_exactly_time_now host :
  exists server : McpServer S,
    server_of (handler host) = Normal server /\
    tools server
    = {[ "time_now" :=
           {| description :=
                "Returns the current time in Istanbul (Europe/Istanbul timezone)";
              inputSchema := ∅;
              callback := time_now host |} ]} /\
    resources server = ∅ /\
    prompts server = ∅ /\
    dom (tools server) = {[ "time_now" ]} /\
    size (tools server) = 1%nat.
Proof.
  eexists. split; [apply server_of_handler | ].
  cbn [tools resources prompts].
  split; [reflexivity | ]. split; [reflexivity | ]. split; [reflexivity | ].
  split; [apply dom_singleton_L | apply map_size_singleton].
Qed.

End Registration.

(** ** The theorems at a concrete host and clock reading *)

Section Witnesses.
Import Intl Timestamp Mcp Route.

Local Abbreviation at_example := {| clock := 1705314600000; state := tt |}.
Local Abbreviation one_second_later := {| clock := 1705314601000; state := tt |}.

Lemma time_now_text_is_prefix_and_timestamp_witness :
  tzdb reference_host !! "Europe/Istanbul" = Some Europe_Istanbul /\
  locale_data reference_host !! "tr-TR" = Some tr_TR /\
  exists c : CivilTime,
    time_now reference_host ∅ at_example
    = (Fulfilled (one_text (prefix +:+ render c)), at_example) /\
    well_formed c /\
    local_second c = (1705314600000 + 1000 * utc_offset Europe_Istanbul
                                               (1705314600000 / 1000)) / 1000.
Proof.
  split; [reflexivity | ]. split; [reflexivity | ].
  apply (time_now_text_is_prefix_and_timestamp
           reference_host Europe_Istanbul ∅ at_example); reflexivity.
Defined.

Lemma time_now_one_text_block_witness :
  tzdb reference_host !! "Europe/Istanbul" = Some Europe_Istanbul /\
  exists (r : ToolInvocationResult) (b : ContentBlock),
    fst (time_now reference_host ∅ at_example) = Fulfilled r /\
    content r = [b] /\ type b = "text".
Proof.
  split; [reflexivity | ].
  apply (time_now_one_text_block reference_host Europe_Istanbul at_example).
  reflexivity.
Defined.

Lemma time_now_example_instant_witness :
  tzdb reference_host !! "Europe/Istanbul" = Some (fixed_zone 10800) /\
  locale_data reference_host !! "tr-TR" = Some tr_TR /\
  exists t : string,
    fst (time_now reference_host ∅ at_example) = Fulfilled (one_text t) /\
    t = prefix +:+ "15.01.2024 13:30:00" /\
    contains "15.01.2024" t = true /\
    contains "13:30:00" t = true.
Proof.
  split; [reflexivity | ]. split; [reflexivity | ].
  apply (time_now_example_instant reference_host ∅ tt); reflexivity.
Defined.

Lemma time_now_cannot_fail_witness :
  tzdb reference_host !! "Europe/Istanbul" = Some Europe_Istanbul /\
  exists r : ToolInvocationResult,
    time_now reference_host ∅ at_example = (Fulfilled r, at_example).
Proof.
  split; [reflexivity | ].
  apply (time_now_cannot_fail reference_host Europe_Istanbul ∅ at_example).
  reflexivity.
Defined.

Lemma time_now_timestamp_within_tolerance_witness :
  tzdb reference_host !! "Europe/Istanbul" = Some Europe_Istanbul /\
  locale_data reference_host !! "tr-TR" = Some tr_TR /\
  1 <= Date.YearFromTime (LocalTime Europe_Istanbul 1705314600000) /\
  exists (t : string) (c : CivilTime),
    time_now reference_host ∅ at_example = (Fulfilled (one_text t), at_example) /\
    parse_text t = Some c /\
    0 <= 1705314600000
         - instant_of c (utc_offset Europe_Istanbul (1705314600000 / 1000)) < 1000.
Proof.
  split; [reflexivity | ]. split; [reflexivity | ].
  split; [vm_compute; discriminate | ].
  apply (time_now_timestamp_within_tolerance
           reference_host Europe_Istanbul ∅ at_example);
    [reflexivity | reflexivity | vm_compute; discriminate].
Defined.

Lemma time_now_side_effect_free_witness :
  let w1 := {| clock := 1705314600000; state := 0%nat |} in
  let w2 := {| clock := 1705314600000; state := 7%nat |} in
  clock w1 = clock w2 /\
  snd (time_now reference_host ∅ w1) = w1 /\
  fst (time_now reference_host ∅ w1) = fst (time_now reference_host ∅ w2) /\
  time_now reference_host ∅ (snd (time_now reference_host ∅ w1))
  = time_now reference_host ∅ w1.
Proof.
  intros w1 w2. split; [reflexivity | ].
  apply (time_now_side_effect_free reference_host ∅ w1 w2). reflexivity.
Defined.

Lemma time_now_ignores_arguments_witness :
  let w := {| clock := 1705314600000; state := 0%nat |} in
  let w0 := {| clock := 1705314600000; state := 7%nat |} in
  clock w = clock w0 /\
  fst (time_now reference_host {[ "timezone" := JString "UTC" ]} w)
  = fst (time_now reference_host ∅ w0) /\
  time_now reference_host {[ "timezone" := JString "UTC" ]} w
  = time_now reference_host ∅ w.
Proof.
  intros w w0. split; [reflexivity | ].
  apply (time_now_ignores_arguments reference_host
           {[ "timezone" := JString "UTC" ]} w w0).
  reflexivity.
Defined.



End Witnesses.

(** * Further properties of the route module *)

(** ** The text has the resolution of a second *)

Section Resolution.
Import Intl Timestamp Mcp Route.

Lemma LocalTime_same_second zone t1 t2 :
  t1 / 1000 = t2 / 1000 -> LocalTime zone t1 / 1000 = LocalTime zone t2 / 1000.
Proof. intros E. rewrite !LocalTime_second, E. reflexivity. Qed.

(** Every field is a function of the local second. *)
Lemma field_value_same_second f tl1 tl2 :
  tl1 / 1000 = tl2 / 1000 -> field_value f tl1 = field_value f tl2.
Proof.
  intros E.
  assert (HD : Date.Day tl1 = Date.Day tl2)
    by (unfold Date.Day, Date.msPerDay; Z.div_mod_to_equations; lia).
  assert (HH : tl1 / Date.msPerHour = tl2 / Date.msPerHour)
    by (unfold Date.msPerHour; Z.div_mod_to_equations; lia).
  assert (HM : tl1 / Date.msPerMinute = tl2 / Date.msPerMinute)
    by (unfold Date.msPerMinute; Z.div_mod_to_equations; lia).
  destruct f; unfold field_value.
  - unfold Date.DateFromTime, Date.MonthFromTime, Date.DayWithinYear,
      Date.InLeapYear, Date.YearFromTime. rewrite HD. reflexivity.
  - unfold Date.MonthFromTime, Date.DayWithinYear, Date.InLeapYear,
      Date.YearFromTime. rewrite HD. reflexivity.
  - unfold Date.YearFromTime. rewrite HD. reflexivity.
  - unfold Date.HourFromTime. rewrite HH. reflexivity.
  - unfold Date.MinFromTime. rewrite HM. reflexivity.
  - unfold Date.SecFromTime, Date.msPerSecond. rewrite E. reflexivity.
Qed.

Lemma FormatDateTime_same_second dtf t1 t2 :
  t1 / 1000 = t2 / 1000 -> FormatDateTime dtf t1 = FormatDateTime dtf t2.
Proof.
  intros E. apply (LocalTime_same_second (zone dtf)) in E.
  unfold FormatDateTime. induction (pattern dtf) as [ | p ps IH]; [reflexivity | ].
  cbn [fold_right]. rewrite IH. f_equal.
  destruct p; [reflexivity | ]. cbn [format_part].
  rewrite (field_value_same_second _ _ _ E). reflexivity.
Qed.

Lemma toLocaleString_same_second host t1 t2 locales opts :
  t1 / 1000 = t2 / 1000 ->
  toLocaleString host t1 locales opts = toLocaleString host t2 locales opts.
Proof.
  intros E. unfold toLocaleString.
  destruct (CreateDateTimeFormat host locales opts) as [dtf | e]; [ | reflexivity].
  unfold mbind, Completion_bind. rewrite (FormatDateTime_same_second dtf _ _ E).
  reflexivity.
Qed.

(** Two invocations whose clock readings fall in the same second return the
    same result, on every host: the milliseconds of the reading never reach
    the text. *)
Theorem time_now_same_second {S} host args1 args2 (w1 w2 : World S) :
  clock w1 / 1000 = clock w2 / 1000 ->
  fst (time_now host args1 w1) = fst (time_now host args2 w2).
Proof.
  intros E. rewrite !time_now_unfold. cbn [fst].
  rewrite (toLocaleString_same_second host _ _ "tr-TR" options E). reflexivity.
Qed.

(** With Europe/Istanbul at UTC+3 and local years of the common era, the
    result tells the clock reading up to the second and no further: two
    invocations return the same result exactly when their readings fall in
    the same second. *)
Theorem time_now_result_determines_second {S} host args1 args2 (w1 w2 : World S) :
  tzdb host !! "Europe/Istanbul" = Some Europe_Istanbul ->
  locale_data host !! "tr-TR" = Some tr_TR ->
  1 <= Date.YearFromTime (LocalTime Europe_Istanbul (clock w1)) ->
  1 <= Date.YearFromTime (LocalTime Europe_Istanbul (clock w2)) ->
  fst (time_now host args1 w1) = fst (time_now host args2 w2)
  <-> clock w1 / 1000 = clock w2 / 1000.
Proof.
  intros Hz Hl H1 H2. split.
  - rewrite (time_now_run host _ args1 w1 Hz), (time_now_run host _ args2 w2 Hz).
    rewrite !(FormatDateTime_tr_TR host _ _ Hl). cbn [fst]. intros E.
    assert (Er : render (civil_of_time (LocalTime Europe_Istanbul (clock w1)))
                 = render (civil_of_time (LocalTime Europe_Istanbul (clock w2)))).
    { apply (append_inj prefix). unfold one_text in E. congruence. }
    apply (f_equal parse) in Er.
    rewrite !parse_render in Er by (apply civil_of_time_well_formed || assumption).
    assert (Ec : civil_of_time (LocalTime Europe_Istanbul (clock w1))
                 = civil_of_time (LocalTime Europe_Istanbul (clock w2)))
      by congruence.
    apply (f_equal local_second) in Ec.
    rewrite !civil_of_time_second, !LocalTime_second in Ec.
    change (utc_offset Europe_Istanbul _) with 10800 in Ec. lia.
  - intros E. rewrite !time_now_unfold. cbn [fst].
    rewrite (toLocaleString_same_second host _ _ "tr-TR" options E). reflexivity.
Qed.

End Resolution.

(** ** Failure, the sentence and the shape of the timestamp *)

Section Text.
Import Intl Timestamp Mcp Route Shape.

(** The callback has one way to fail.  Its promise is fulfilled exactly when
    the time-zone database has Europe/Istanbul, and is rejected, with the
    RangeError of the time-zone option, exactly when it has not; the six
    component options never cause a failure.  The world is left as it was in
    both cases. *)
Theorem time_now_fails_only_without_zone {S} host args (w : World S) :
  ((exists r, time_now host args w = (Fulfilled r, w))
   <-> is_Some (tzdb host !! "Europe/Istanbul")) /\
  (time_now host args w = (Rejected (RangeError "timeZone"), w)
   <-> tzdb host !! "Europe/Istanbul" = None).
Proof.
  destruct (tzdb host !! "Europe/Istanbul") as [zone | ] eqn:Hz.
  - rewrite (time_now_run host zone args w Hz). split; split.
    + intros _. eexists. reflexivity.
    + intros _. eexists. reflexivity.
    + discriminate.
    + discriminate.
  - rewrite (time_now_without_zone host args w Hz). split; split.
    + intros [r Hr]. discriminate.
    + intros [z Hzz]. discriminate.
    + reflexivity.
    + reflexivity.
Qed.

Lemma prefix_append p s : String.prefix p (p +:+ s) = true.
Proof.
  induction p as [ | a p IH]; [destruct s; reflexivity | ].
  rewrite append_cons. cbn [String.prefix]. rewrite IH.
  destruct (ascii_dec a a); [reflexivity | congruence].
Qed.

Lemma contains_append p s : contains p (p +:+ s) = true.
Proof.
  destruct (p +:+ s) eqn:E; cbn [contains]; rewrite <- E, prefix_append; reflexivity.
Qed.

(** Whatever locale data the host has, on a host with the zone the text is
    the sentence "Şu an İstanbul saatiyle: " followed by what the formatter
    returned, so it contains "Şu an İstanbul saatiyle:", which is what the
    unit test of the README looks for. *)
Theorem time_now_text_has_sentence {S} host zone args (w : World S) :
  tzdb host !! "Europe/Istanbul" = Some zone ->
  exists t timeString : string,
    fst (time_now host args w) = Fulfilled (one_text t) /\
    toLocaleString host (clock w) "tr-TR" options = Normal timeString /\
    t = prefix +:+ timeString /\
    contains "Şu an İstanbul saatiyle:" t = true.
Proof.
  intros Hz. rewrite (time_now_run host zone args w Hz).
  eexists _, _. split; [reflexivity | ].
  split; [apply (toLocaleString_resolved host zone _ Hz) | ].
  split; [reflexivity | ].
  change (prefix +:+ ?x) with ("Şu an İstanbul saatiyle:" +:+ String " " x).
  apply contains_append.
Qed.

(** Checking a property of every number of a range by evaluation. *)
Lemma in_range (P : Z -> bool) lo n :
  forallb P (seqZ lo n) = true -> forall v, lo <= v < lo + n -> P v = true.
Proof.
  intros H v Hv. rewrite forallb_forall in H. apply H.
  apply list_elem_of_In, elem_of_seqZ. lia.
Qed.

Lemma matches_app cs1 cs2 s1 s2 :
  matches cs1 s1 = true -> matches cs2 s2 = true ->
  matches (cs1 ++ cs2) (s1 +:+ s2) = true.
Proof.
  revert s1. induction cs1 as [ | c cs1 IH]; intros s1 H1 H2.
  - destruct s1; [exact H2 | discriminate].
  - destruct s1 as [ | a s1]; [destruct c; discriminate | ].
    rewrite append_cons. cbn [app matches] in *.
    destruct c; apply andb_true_iff in H1 as [Ha H1];
      rewrite Ha, (IH _ H1 H2); reflexivity.
Qed.

Lemma matches_length cs s : matches cs s = true -> String.length s = length cs.
Proof.
  revert s. induction cs as [ | c cs IH]; intros [ | a s] H;
    try reflexivity; try (destruct c; discriminate); try discriminate.
  cbn [matches] in H. cbn [String.length length]. f_equal. apply IH.
  destruct c; apply andb_true_iff in H as [_ H]; exact H.
Qed.

Lemma matches_pad2 v : 0 <= v < 100 -> matches [AnyDigit; AnyDigit] (pad2 v) = true.
Proof.
  apply (in_range (fun v => matches [AnyDigit; AnyDigit] (pad2 v)) 0 100).
  vm_compute. reflexivity.
Qed.

Lemma matches_four_digit_year y :
  1000 <= y <= 9999 ->
  matches [AnyDigit; AnyDigit; AnyDigit; AnyDigit] (decimal y) = true.
Proof.
  intros Hy.
  apply (in_range (fun y => matches [AnyDigit; AnyDigit; AnyDigit; AnyDigit] (decimal y))
                  1000 9000); [vm_compute; reflexivity | lia].
Qed.

Lemma render_shape c :
  well_formed c -> 1000 <= c_year c <= 9999 -> matches timestamp_shape (render c) = true.
Proof.
  intros (Hm & Hd & Hh & Hmi & Hs) Hy.
  pose proof (DaysInMonth_le (c_year c) (c_month c)).
  assert (Hera : year_of_era (c_year c) = c_year c).
  { unfold year_of_era. destruct (Z.leb_spec (c_year c) 0); lia. }
  unfold render. rewrite Hera.
  change timestamp_shape with
    ([AnyDigit; AnyDigit] ++ [Exactly "."] ++ [AnyDigit; AnyDigit] ++ [Exactly "."] ++
     [AnyDigit; AnyDigit; AnyDigit; AnyDigit] ++ [Exactly " "] ++
     [AnyDigit; AnyDigit] ++ [Exactly ":"] ++ [AnyDigit; AnyDigit] ++ [Exactly ":"] ++
     [AnyDigit; AnyDigit]).
  repeat (apply matches_app;
          [first [apply matches_pad2; lia | apply matches_four_digit_year; lia
                 | reflexivity] | ]).
  apply matches_pad2. lia.
Qed.

(** While the local year has four digits (years 1000 to 9999), the timestamp
    after the sentence is exactly 19 characters of the shape
    dd.dd.dddd dd:dd:dd, each d a decimal digit. *)
Theorem time_now_timestamp_shape {S} host zone args (w : World S) :
  tzdb host !! "Europe/Istanbul" = Some zone ->
  locale_data host !! "tr-TR" = Some tr_TR ->
  1000 <= Date.YearFromTime (LocalTime zone (clock w)) <= 9999 ->
  exists ts : string,
    time_now host args w = (Fulfilled (one_text (prefix +:+ ts)), w) /\
    matches timestamp_shape ts = true /\
    String.length ts = 19%nat.
Proof.
  intros Hz Hl Hy.
  rewrite (time_now_run host zone args w Hz), (FormatDateTime_tr_TR host zone _ Hl).
  eexists. split; [reflexivity | ].
  assert (Hs : matches timestamp_shape
                 (render (civil_of_time (LocalTime zone (clock w)))) = true)
    by (apply render_shape; [apply civil_of_time_well_formed | exact Hy]).
  split; [exact Hs | exact (matches_length _ _ Hs)].
Qed.

End Text.

(** ** The closure on any server, and the dispatch *)

Section Dispatch.
Import Intl Timestamp Mcp Route.
Context {S : Type}.
Implicit Types (host : Host) (server : McpServer S) (args : gmap string Json) (w : World S).

Lemma configure_unfold host server :
  configure host server
  = match tools server !! "time_now" with
    | Some _ => Throw (Error "tool is already registered")
    | None =>
        Normal {| tools := <["time_now" :=
                    {| description :=
                         "Returns the current time in Istanbul (Europe/Istanbul timezone)";
                       inputSchema := ∅;
                       callback := time_now host |}]> (tools server);
                  resources := resources server;
                  prompts := prompts server |}
    end.
Proof. reflexivity. Qed.

(** On a server where the name is free, the closure adds the [time_now]
    entry and nothing else: every other tool, every resource and every
    prompt of the server is kept as it was. *)
Theorem configure_keeps_the_rest host server :
  tools server !! "time_now" = None ->
  exists server',
    configure host server = Normal server' /\
    tools server' !! "time_now"
    = Some {| description :=
                "Returns the current time in Istanbul (Europe/Istanbul timezone)";
              inputSchema := ∅;
              callback := time_now host |} /\
    (forall name, name <> "time_now" -> tools server' !! name = tools server !! name) /\
    resources server' = resources server /\
    prompts server' = prompts server /\
    size (tools server') = Datatypes.S (size (tools server)).
Proof.
  intros Hfree. rewrite configure_unfold, Hfree. eexists. split; [reflexivity | ].
  cbn [tools resources prompts].
  split; [apply lookup_insert_eq | ].
  split; [intros name Hne; apply lookup_insert_ne; congruence | ].
  split; [reflexivity | ]. split; [reflexivity | ].
  apply map_size_insert_None. exact Hfree.
Qed.

(** The closure succeeds exactly on the servers where the name [time_now]
    is free, and it takes the name: run a second time on the server it
    returned, it throws instead of registering the tool again. *)
Theorem configure_fails_on_collision host server :
  ((exists server', configure host server = Normal server')
   <-> tools server !! "time_now" = None) /\
  (forall server', configure host server = Normal server' ->
     exists e, configure host server' = Throw e).
Proof.
  rewrite configure_unfold. split.
  - destruct (tools server !! "time_now"); split.
    + intros [s' H]. discriminate.
    + discriminate.
    + reflexivity.
    + intros _. eexists. reflexivity.
  - intros server' H. destruct (tools server !! "time_now"); [discriminate | ].
    injection H as <-. rewrite configure_unfold. cbn [tools].
    rewrite lookup_insert_eq. eexists. reflexivity.
Qed.

Lemma tools_call_unfold host name args w :
  tools_call (handler host) name args w
  = if decide (name = "time_now")
    then (Invoked (fst (time_now host ∅ w)), snd (time_now host ∅ w))
    else (ToolNotFound, w).
Proof.
  unfold tools_call. rewrite server_of_handler. cbn [tools].
  destruct (decide (name = "time_now")) as [-> | Hne].
  - rewrite lookup_singleton_eq. cbn [inputSchema callback].
    rewrite validate_empty_schema. destruct (time_now host ∅ w). reflexivity.
  - rewrite lookup_singleton_ne by congruence. reflexivity.
Qed.

(** The handler answers to one tool name only: a [tools/call] request ends
    as "tool not found" exactly when it names anything but [time_now],
    whatever its arguments. *)
Theorem handler_serves_only_time_now host name args w :
  fst (tools_call (handler host) name args w) = ToolNotFound <-> name <> "time_now".
Proof.
  rewrite tools_call_unfold.
  destruct (decide (name = "time_now")) as [E | Hne].
  - cbn [fst]. split; [discriminate | intros H; contradiction].
  - cbn [fst]. split; [intros _; exact Hne | reflexivity].
Qed.

(** A request that names [time_now] with the empty argument object, on a
    host with the zone and the locale data and in a local year of the common
    era, goes through registry, validation and callback and answers with one
    text whose timestamp reads back to within a second of the clock. *)
Theorem tools_call_time_now_end_to_end host zone w :
  tzdb host !! "Europe/Istanbul" = Some zone ->
  locale_data host !! "tr-TR" = Some tr_TR ->
  1 <= Date.YearFromTime (LocalTime zone (clock w)) ->
  exists (t : string) (c : CivilTime),
    tools_call (handler host) "time_now" ∅ w = (Invoked (Fulfilled (one_text t)), w) /\
    parse_text t = Some c /\
    well_formed c /\
    0 <= clock w - instant_of c (utc_offset zone (clock w / 1000)) < 1000.
Proof.
  intros Hz Hl Hy. rewrite tools_call_unfold.
  rewrite decide_True by reflexivity.
  rewrite (time_now_run host zone ∅ w Hz), (FormatDateTime_tr_TR host zone _ Hl).
  cbn [fst snd]. eexists _, _. split; [reflexivity | ].
  split; [ | split].
  - unfold parse_text. rewrite strip_prefix_append. cbn [mbind option_bind].
    apply parse_render; [apply civil_of_time_well_formed | exact Hy].
  - apply civil_of_time_well_formed.
  - unfold instant_of. rewrite civil_of_time_second, LocalTime_second.
    Z.div_mod_to_equations. lia.
Qed.

End Dispatch.

(** ** Zones with transitions *)

Section Transitions.
Import Intl Timestamp Mcp Route.


End Transitions.

(** ** The further properties at a concrete host and clock reading *)

Section FurtherWitnesses.
Import Intl Timestamp Mcp Route Shape.

Local Abbreviation at_example := {| clock := 1705314600000; state := tt |}.
Local Abbreviation same_second := {| clock := 1705314600999; state := tt |}.

Lemma time_now_same_second_witness :
  1705314600000 / 1000 = 1705314600999 / 1000 /\
  fst (time_now reference_host ∅ at_example)
  = fst (time_now reference_host {[ "timezone" := JString "UTC" ]} same_second).
Proof.
  split; [reflexivity | ].
  apply (time_now_same_second reference_host ∅ {[ "timezone" := JString "UTC" ]}
           at_example same_second).
  reflexivity.
Defined.

Lemma time_now_result_determines_second_witness :
  tzdb reference_host !! "Europe/Istanbul" = Some Europe_Istanbul /\
  locale_data reference_host !! "tr-TR" = Some tr_TR /\
  1 <= Date.YearFromTime (LocalTime Europe_Istanbul 1705314600000) /\
  1 <= Date.YearFromTime (LocalTime Europe_Istanbul 1705314600999) /\
  (fst (time_now reference_host ∅ at_example)
   = fst (time_now reference_host ∅ same_second)
   <-> 1705314600000 / 1000 = 1705314600999 / 1000).
Proof.
  split; [reflexivity | ]. split; [reflexivity | ].
  split; [vm_compute; discriminate | ]. split; [vm_compute; discriminate | ].
  apply (time_now_result_determines_second reference_host ∅ ∅ at_example same_second);
    [reflexivity | reflexivity | vm_compute; discriminate | vm_compute; discriminate].
Defined.

Lemma time_now_text_has_sentence_witness :
  tzdb reference_host !! "Europe/Istanbul" = Some Europe_Istanbul /\
  exists t timeString : string,
    fst (time_now reference_host ∅ at_example) = Fulfilled (one_text t) /\
    toLocaleString reference_host 1705314600000 "tr-TR" options = Normal timeString /\
    t = prefix +:+ timeString /\
    contains "Şu an İstanbul saatiyle:" t = true.
Proof.
  split; [reflexivity | ].
  apply (time_now_text_has_sentence reference_host Europe_Istanbul ∅ at_example).
  reflexivity.
Defined.

Lemma time_now_timestamp_shape_witness :
  tzdb reference_host !! "Europe/Istanbul" = Some Europe_Istanbul /\
  locale_data reference_host !! "tr-TR" = Some tr_TR /\
  1000 <= Date.YearFromTime (LocalTime Europe_Istanbul 1705314600000) <= 9999 /\
  exists ts : string,
    time_now reference_host ∅ at_example
    = (Fulfilled (one_text (prefix +:+ ts)), at_example) /\
    matches timestamp_shape ts = true /\
    String.length ts = 19%nat.
Proof.
  split; [reflexivity | ]. split; [reflexivity | ].
  split; [split; vm_compute; discriminate | ].
  apply (time_now_timestamp_shape reference_host Europe_Istanbul ∅ at_example);
    [reflexivity | reflexivity | split; vm_compute; discriminate].
Defined.

Lemma configure_keeps_the_rest_witness :
  tools (server_with_echo reference_host) !! "time_now" = None /\
  exists server',
    configure reference_host (server_with_echo reference_host) = Normal server' /\
    tools server' !! "time_now"
    = Some {| description :=
                "Returns the current time in Istanbul (Europe/Istanbul timezone)";
              inputSchema := ∅;
              callback := time_now reference_host |} /\
    (forall name, name <> "time_now" ->
       tools server' !! name = tools (server_with_echo reference_host) !! name) /\
    resources server' = resources (server_with_echo reference_host) /\
    prompts server' = prompts (server_with_echo reference_host) /\
    size (tools server') = S (size (tools (server_with_echo reference_host))).
Proof.
  split; [reflexivity | ].
  apply (configure_keeps_the_rest reference_host (server_with_echo reference_host)).
  reflexivity.
Defined.

Lemma configure_fails_on_collision_witness :
  exists server' : McpServer unit,
    configure reference_host fresh_server = Normal server' /\
    exists e, configure reference_host server' = Throw e.
Proof.
  eexists. split; [reflexivity | ].
  apply (proj2 (configure_fails_on_collision reference_host fresh_server)).
  reflexivity.
Defined.


Lemma tools_call_time_now_end_to_end_witness :
  tzdb reference_host !! "Europe/Istanbul" = Some Europe_Istanbul /\
  locale_data reference_host !! "tr-TR" = Some tr_TR /\
  1 <= Date.YearFromTime (LocalTime Europe_Istanbul 1705314600000) /\
  exists (t : string) (c : CivilTime),
    tools_call (handler reference_host) "time_now" ∅ at_example
    = (Invoked (Fulfilled (one_text t)), at_example) /\
    parse_text t = Some c /\
    well_formed c /\
    0 <= 1705314600000
         - instant_of c (utc_offset Europe_Istanbul (1705314600000 / 1000)) < 1000.
Proof.
  split; [reflexivity | ]. split; [reflexivity | ].
  split; [vm_compute; discriminate | ].
  apply (tools_call_time_now_end_to_end reference_host Europe_Istanbul at_example);
    [reflexivity | reflexivity | vm_compute; discriminate].
Defined.

End FurtherWitnesses.
